(** * A shallow embedding of the Github_Plugin aggregation engine

    Sources embedded:
    - [src/src/github.py]: the [PullRequest] dataclass, [GithubError],
      [Github.get_prs], [Github.__fetch_prs], [Github.__build_pr],
      [Github.__get_pr_approves] (with the semantics of
      [multiprocessing.Process]: an exception raised in a child process is
      not re-raised in the parent, [join] returns normally);
    - [src/src/utils.py]: [pr_is_approved], [in_place_filter];
    - [src/main.py]: [GithubController.__order_filter_prs],
      [GithubController.__get_prs], [GithubController.__fetch_prs],
      [GithubController.build_pr_items], [CustomActionEvent.multiselect]
      and the event listeners. The predicate of
      [KeywordQueryEventListener.on_event] calls [re.search] with
      [re.IGNORECASE]; the [re] module is a parameter of the listener and
      of the query ([re_lib]), and one implementation of it is given for a
      fragment of its pattern syntax. *)

From Stdlib Require Import List String Ascii ZArith Bool Lia.
From Stdlib Require Import Sorting.Sorted Sorting.Permutation.
Import ListNotations.
Open Scope string_scope.
Open Scope list_scope.
Open Scope Z_scope.

(** ** Data model ([src/src/github.py]) *)

(** [created_at] is a [datetime]; it is represented by its distance to a
    fixed epoch in microseconds, the resolution of [datetime]. *)
Record PullRequest := mkPR {
  repo : string;
  title : string;
  url : string;
  is_draft : bool;
  created_by : string;
  created_at : Z;
  approves : list string
}.

Record GithubError := mkGithubError {
  err_title : string;
  err_description : string
}.

(** Python's exceptions on the paths embedded here. *)
Inductive Exc :=
| ExcGithub (e : GithubError)
| ExcRe (msg : string)
(** a [re] pattern outside the fragment of its syntax modelled below:
    the model gives no answer for it *)
| ExcOutsideModel.

Inductive result (A : Type) :=
| ROk (a : A)
| RErr (e : Exc).
Arguments ROk {A} a.
Arguments RErr {A} e.

(** ** [src/src/utils.py] *)

(** [user in pr.approves] on a list of [str]. *)
Definition str_in (s : string) (l : list string) : bool :=
  existsb (String.eqb s) l.

(** [len(pr.approves) >= 2 or user in pr.approves] *)
Definition pr_is_approved (pr : PullRequest) (user : string) : bool :=
  (2 <=? Z.of_nat (List.length (approves pr))) || str_in user (approves pr).

(** [in_place_filter(array, predicate)]: returns the removed elements and
    leaves [filter(predicate, array)] in [array]. The pair is
    (new contents of [array], returned list). *)
Definition in_place_filter {A} (array : list A) (predicate : A -> bool)
  : list A * list A :=
  let removed_elements := List.filter (fun x => negb (predicate x)) array in
  (List.filter predicate array, removed_elements).

(** ** Python's stable [list.sort(key=..., reverse=...)]

    Python's sort is stable, also with [reverse=True] (equal keys keep
    their original order). It is modelled by an insertion sort that
    inserts the elements from the right: an element coming earlier in the
    input is placed before every element of equal key. *)
Section StableSort.
Context {A : Type} (key : A -> Z) (reverse : bool).

(** [x] goes before [y] in the output. *)
Definition goes_before (x y : A) : bool :=
  if reverse then key y <=? key x else key x <=? key y.

Fixpoint sort_insert (x : A) (l : list A) : list A :=
  match l with
  | [] => [x]
  | y :: l' => if goes_before x y then x :: y :: l' else y :: sort_insert x l'
  end.

Fixpoint py_sort (l : list A) : list A :=
  match l with
  | [] => []
  | x :: l' => sort_insert x (py_sort l')
  end.
End StableSort.

(** ** [GithubController.__order_filter_prs] ([src/main.py]) *)

(** The contents of [prs] after line 194, i.e. before the partition. *)
Definition order_prs (user : string) (prs : list PullRequest) : list PullRequest :=
  let prs1 := List.filter (fun pr => negb (is_draft pr)) prs in
  let prs2 := py_sort created_at true prs1 in
  py_sort (fun pr => if String.eqb (created_by pr) user then -1 else 0) false prs2.

(** Returns [(open_prs, approved_prs)]. *)
Definition order_filter_prs (user : string) (prs : list PullRequest)
  : list PullRequest * list PullRequest :=
  let prs3 := order_prs user prs in
  in_place_filter prs3 (fun pr => negb (pr_is_approved pr user)).

(** Order-preserving inclusion of lists: [subseq l1 l2] when [l1] is [l2]
    with some elements removed. *)
Inductive subseq {A : Type} : list A -> list A -> Prop :=
| subseq_nil : subseq [] []
| subseq_skip x l1 l2 : subseq l1 l2 -> subseq l1 (x :: l2)
| subseq_take x l1 l2 : subseq l1 l2 -> subseq (x :: l1) (x :: l2).

(** The two groups of the ordering step. *)
Definition own (user : string) (pr : PullRequest) : bool :=
  String.eqb (created_by pr) user.

(** Non-increasing by [created_at]. *)
Definition newer_first (a b : PullRequest) : Prop :=
  created_at b <= created_at a.

(** The key of the second sort: [-1 if pr.created_by == self.user else 0]. *)
Definition two_key {A} (p : A -> bool) (x : A) : Z := if p x then -1 else 0.

(** ** Facts about the pipeline *)

Definition non_draft (prs : list PullRequest) : list PullRequest :=
  List.filter (fun pr => negb (is_draft pr)) prs.

Definition recent_first (prs : list PullRequest) : list PullRequest :=
  py_sort created_at true (non_draft prs).

(** ** The fetch ([src/src/github.py])

    The network is given as the answers of the three endpoints; [None]
    stands for a call that raises (transport failure, non-JSON body, a
    missing key in the decoded payload). *)

Record Review := mkReview {
  rv_state : string;
  rv_login : string
}.

(** One entry of [GET {repo.url}/pulls]; [raw_created_at] is the outcome of
    [datetime.strptime(pr["created_at"], "%Y-%m-%dT%H:%M:%SZ")]. *)
Record RawPR := mkRawPR {
  raw_url : string;
  raw_html_url : string;
  raw_title : string;
  raw_draft : bool;
  raw_user_login : string;
  raw_created_at : option Z;
  raw_head_repo_name : string
}.

(** [net_repos]: [None] when [requests.get(...).json()] raises (then
    [self.repos] is not assigned) or decodes to [null] ([self.repos] stays
    [None] and [map] over it raises); [Some None] when it decodes to a
    value whose entries have no ["url"] (it is assigned, and every
    [r["url"]] raises later); [Some (Some urls)] otherwise. *)
Record Network := mkNetwork {
  net_repos : option (option (list string));
  net_pulls : string -> option (list RawPR);
  net_reviews : string -> option (list Review)
}.

(** A [Manager().dict()]: insertion ordered, an assignment to an existing
    key keeps its position. *)
Definition pydict (V : Type) := list (string * V).

Fixpoint dict_set {V} (k : string) (v : V) (d : pydict V) : pydict V :=
  match d with
  | [] => [(k, v)]
  | (k', v') :: d' => if String.eqb k k' then (k, v) :: d' else (k', v') :: dict_set k v d'
  end.

Definition dict_values {V} (d : pydict V) : list V := map snd d.

(** A process target: [Some w] when it runs to its end and performs the
    write [w] on the shared dict, [None] when it raises. *)
Definition target (V : Type) := option (pydict V -> pydict V).

(** [for p in processes: p.start()] then [for p in processes: p.join()]:
    the children write to the shared dict in the order they finish (here
    taken to be the order they were started); an exception raised in a
    child ends that child only, [join] returns normally in the parent. *)
Definition run_processes {V} (targets : list (target V)) (d : pydict V) : pydict V :=
  fold_left (fun acc t => match t with Some w => w acc | None => acc end) targets d.

(** [Github.__get_pr_approves] on the decoded reviews. *)
Definition get_pr_approves (reviews : list Review) : list string :=
  map rv_login (List.filter (fun r => String.eqb (rv_state r) "APPROVED") reviews).

(** [Github.__build_pr], run in a child process. *)
Definition build_pr (net : Network) (pr : RawPR) : target PullRequest :=
  match raw_created_at pr, net_reviews net (raw_url pr) with
  | Some t, Some reviews =>
      Some (dict_set (raw_url pr)
              (mkPR (raw_head_repo_name pr) (raw_title pr) (raw_html_url pr)
                    (raw_draft pr) (raw_user_login pr) t (get_pr_approves reviews)))
  | _, _ => None
  end.

(** [Github.__fetch_prs], run in a child process. *)
Definition fetch_repo_prs (net : Network) (repo_url : string) : target (list PullRequest) :=
  match net_pulls net repo_url with
  | None => None
  | Some pulls =>
      let result_matrix := run_processes (map (build_pr net) pulls) [] in
      Some (dict_set repo_url (dict_values result_matrix))
  end.

Definition fetch_error : GithubError :=
  mkGithubError "Error getting Pull Requests" "Check you connectivity, github url and access token".

(** [Github.get_prs]: the result and the new value of [self.repos]. Every
    exception raised in this process is turned into [fetch_error]. *)
Definition github_get_prs (net : Network) (repos : option (option (list string)))
  : result (list PullRequest) * option (option (list string)) :=
  let repos' := match repos with None => net_repos net | Some r => Some r end in
  match repos' with
  | None => (RErr (ExcGithub fetch_error), repos)
  | Some None => (RErr (ExcGithub fetch_error), Some None)
  | Some (Some urls) =>
      let result_matrix := run_processes (map (fetch_repo_prs net) urls) [] in
      (ROk (List.concat (dict_values result_matrix)), Some (Some urls))
  end.

(** ** The controller's cache ([src/main.py])

    [last_request] is [(datetime, (open_prs, approved_prs))]; times are in
    microseconds. *)
Record Controller := mkController {
  ctrl_user : string;
  last_request : option (Z * (list PullRequest * list PullRequest));
  gh_repos : option (option (list string))
}.

Definition one_minute : Z := 60000000.

Definition set_repos (st : Controller) r : Controller :=
  mkController (ctrl_user st) (last_request st) r.

(** [GithubController.__fetch_prs]; [tdone] is [datetime.now()] read on
    line 188, after the fetch. The [nat] counts the calls of
    [self.github_client.get_prs()]. *)
Definition ctrl_fetch_prs (net : Network) (tdone : Z) (st : Controller)
  : result (list PullRequest * list PullRequest) * Controller * nat :=
  let '(r, repos') := github_get_prs net (gh_repos st) in
  match r with
  | RErr e => (RErr e, set_repos st repos', 1%nat)
  | ROk prs =>
      let prs_tuple := order_filter_prs (ctrl_user st) prs in
      (ROk prs_tuple, mkController (ctrl_user st) (Some (tdone, prs_tuple)) repos', 1%nat)
  end.

(** [GithubController.__get_prs]; [now] is [datetime.now()] read on line
    182. *)
Definition ctrl_get_prs (net : Network) (now tdone : Z) (st : Controller)
  : result (list PullRequest * list PullRequest) * Controller * nat :=
  match last_request st with
  | Some (t0, snapshot) =>
      if now - t0 <? one_minute then (ROk snapshot, st, 0%nat) else ctrl_fetch_prs net tdone st
  | None => ctrl_fetch_prs net tdone st
  end.

(** A sequence of calls of [__get_prs], each with its network and
    clock readings; the controller after them. *)
Fixpoint ctrl_calls (calls : list (Network * Z * Z)) (st : Controller) : Controller :=
  match calls with
  | [] => st
  | (net, now, tdone) :: calls' => ctrl_calls calls' (snd (fst (ctrl_get_prs net now tdone st)))
  end.

(** The entry is stale at [now]: none exists, or it is a minute old. *)
Definition stale (st : Controller) (now : Z) : Prop :=
  match last_request st with
  | None => True
  | Some (t0, _) => one_minute <= now - t0
  end.

(** ** Concrete payloads *)

Definition repo_a_url : string := "https://ghe.example/api/v3/repos/org/a".
Definition repo_b_url : string := "https://ghe.example/api/v3/repos/org/b".

Definition raw_a : RawPR :=
  mkRawPR "https://ghe.example/api/v3/repos/org/a/pulls/1" "https://ghe.example/org/a/pull/1"
          "Fix login" false "bob" (Some 1000) "a".

Definition pr_a : PullRequest :=
  mkPR "a" "Fix login" "https://ghe.example/org/a/pull/1" false "bob" 1000 [].

(** Repository [b]'s [/pulls] request raises; everything else answers. *)
Definition net_b_down : Network :=
  mkNetwork (Some (Some [repo_a_url; repo_b_url]))
            (fun u => if String.eqb u repo_a_url then Some [raw_a] else None)
            (fun _ => Some []).

(** Two [APPROVED] reviews by the same reviewer. *)
Definition bob_twice : list Review :=
  [mkReview "APPROVED" "bob"; mkReview "COMMENTED" "carol"; mkReview "APPROVED" "bob"].

Definition net_bob_twice : Network :=
  mkNetwork (Some (Some [repo_a_url])) (fun _ => Some [raw_a]) (fun _ => Some bob_twice).

(** ** [re.search(pattern, s, re.IGNORECASE)] for a fragment of [re]

    Characters are Latin-1 code points (one [ascii] byte each). On these,
    [re.IGNORECASE] identifies exactly the characters with equal simple
    lowercase: [A-Z] with [a-z], and U+00C0..U+00DE (except U+00D7) with
    the character 32 above. The pattern syntax modelled: literal
    characters, [.] (any character but a newline), [*], [+], [?] and their
    lazy forms, [|], groups [( )], and backslash escapes of non
    alphanumeric characters. Other syntax ([[ ]], [{ }], [^], [$], [(?...)],
    escapes such as [\d], stacked quantifiers) is outside the model. *)

Definition fold_case (c : ascii) : ascii :=
  let n := nat_of_ascii c in
  if (Nat.leb 65 n && Nat.leb n 90) || (Nat.leb 192 n && Nat.leb n 222 && negb (Nat.eqb n 215))
  then ascii_of_nat (n + 32) else c.

Definition newline : ascii := ascii_of_nat 10.

Inductive regex :=
| RNull
| REps
| RChr (c : ascii)
| RAny
| RCat (r1 r2 : regex)
| RAlt (r1 r2 : regex)
| RStar (r : regex).

Fixpoint nullable (r : regex) : bool :=
  match r with
  | RNull | RChr _ | RAny => false
  | REps | RStar _ => true
  | RCat r1 r2 => nullable r1 && nullable r2
  | RAlt r1 r2 => nullable r1 || nullable r2
  end.

(** Brzozowski derivative, comparing characters up to case. *)
Fixpoint deriv (c : ascii) (r : regex) : regex :=
  match r with
  | RNull | REps => RNull
  | RChr d => if Ascii.eqb (fold_case c) (fold_case d) then REps else RNull
  | RAny => if Ascii.eqb c newline then RNull else REps
  | RCat r1 r2 =>
      if nullable r1 then RAlt (RCat (deriv c r1) r2) (deriv c r2) else RCat (deriv c r1) r2
  | RAlt r1 r2 => RAlt (deriv c r1) (deriv c r2)
  | RStar r1 => RCat (deriv c r1) (RStar r1)
  end.

(** Some prefix of [s] matches [r]. *)
Fixpoint prefix_match (r : regex) (s : list ascii) : bool :=
  match s with
  | [] => nullable r
  | c :: s' => nullable r || prefix_match (deriv c r) s'
  end.

Fixpoint suffixes {A} (s : list A) : list (list A) :=
  match s with
  | [] => [[]]
  | _ :: s' => s :: suffixes s'
  end.

(** [re.search] finds a match starting at some position; the match object
    it returns is always true in a boolean context. *)
Definition search (r : regex) (s : list ascii) : bool :=
  existsb (prefix_match r) (suffixes s).

Inductive presult :=
| POk (r : regex) (rest : list ascii)
| PErr (msg : string)
| PUnsupported.

Definition is_alnum (c : ascii) : bool :=
  let n := nat_of_ascii c in
  (Nat.leb 48 n && Nat.leb n 57) || (Nat.leb 65 n && Nat.leb n 90) || (Nat.leb 97 n && Nat.leb n 122).

Definition is_quantifier (c : ascii) : bool :=
  Ascii.eqb c "*" || Ascii.eqb c "+" || Ascii.eqb c "?".

Definition nothing_to_repeat : string := "nothing to repeat".
Definition missing_paren : string := "missing ), unterminated subpattern".
Definition unbalanced_paren : string := "unbalanced parenthesis".
Definition bad_escape_end : string := "bad escape (end of pattern)".

(** After an atom: an optional quantifier and its lazy [?]. *)
Definition quantify (a : regex) (cs : list ascii) : presult :=
  let '(a', rest) :=
    match cs with
    | q :: rest =>
        if Ascii.eqb q "*" then (RStar a, rest)
        else if Ascii.eqb q "+" then (RCat a (RStar a), rest)
        else if Ascii.eqb q "?" then (RAlt a REps, rest)
        else (a, cs)
    | [] => (a, cs)
    end in
  let quantified := match cs with q :: _ => is_quantifier q | [] => false end in
  let rest' :=
    match rest with
    | q :: rest'' => if quantified && Ascii.eqb q "?" then rest'' else rest
    | [] => rest
    end in
  match rest' with
  | q :: _ => if quantified && is_quantifier q then PUnsupported else POk a' rest'
  | [] => POk a' rest'
  end.

Fixpoint parse_alt (fuel : nat) (cs : list ascii) : presult :=
  match fuel with
  | O => PUnsupported
  | S f =>
      match parse_seq f cs REps with
      | POk r1 (c :: rest) =>
          if Ascii.eqb c "|" then
            match parse_alt f rest with
            | POk r2 rest' => POk (RAlt r1 r2) rest'
            | e => e
            end
          else POk r1 (c :: rest)
      | e => e
      end
  end
with parse_seq (fuel : nat) (cs : list ascii) (acc : regex) : presult :=
  match fuel with
  | O => PUnsupported
  | S f =>
      match cs with
      | [] => POk acc []
      | c :: _ =>
          if Ascii.eqb c "|" || Ascii.eqb c ")" then POk acc cs
          else match parse_atom f cs with
               | POk a rest =>
                   match quantify a rest with
                   | POk a' rest' => parse_seq f rest' (RCat acc a')
                   | e => e
                   end
               | e => e
               end
      end
  end
with parse_atom (fuel : nat) (cs : list ascii) : presult :=
  match fuel with
  | O => PUnsupported
  | S f =>
      match cs with
      | [] => PUnsupported
      | c :: rest =>
          if Ascii.eqb c "(" then
            match rest with
            | q :: _ => if Ascii.eqb q "?" then PUnsupported else
                match parse_alt f rest with
                | POk r (d :: rest') =>
                    if Ascii.eqb d ")" then POk r rest' else PErr missing_paren
                | POk _ [] => PErr missing_paren
                | e => e
                end
            | [] => PErr missing_paren
            end
          else if Ascii.eqb c "." then POk RAny rest
          else if Ascii.eqb c "\" then
            match rest with
            | [] => PErr bad_escape_end
            | d :: rest' => if is_alnum d then PUnsupported else POk (RChr d) rest'
            end
          else if is_quantifier c then PErr nothing_to_repeat
          else if Ascii.eqb c "[" || Ascii.eqb c "{" || Ascii.eqb c "^" || Ascii.eqb c "$"
          then PUnsupported
          else POk (RChr c) rest
      end
  end.

Inductive compiled :=
| Compiled (r : regex)
| CompileError (msg : string)
| Unsupported.

(** [re.compile(pattern, re.IGNORECASE)]. *)
Definition re_compile (pattern : string) : compiled :=
  let cs := list_ascii_of_string pattern in
  match parse_alt (4 * List.length cs + 4) cs with
  | POk r [] => Compiled r
  | POk _ _ => CompileError unbalanced_paren
  | PErr msg => CompileError msg
  | PUnsupported => Unsupported
  end.

(** [re.search(query, s, re.IGNORECASE)] in a boolean context. *)
Definition re_search (pattern s : string) : result bool :=
  match re_compile pattern with
  | Compiled r => ROk (search r (list_ascii_of_string s))
  | CompileError msg => RErr (ExcRe msg)
  | Unsupported => RErr ExcOutsideModel
  end.

(** The predicate of [KeywordQueryEventListener.on_event]:
    [re.search(query, pr.title, re.IGNORECASE) or
     re.search(query, pr.repo, re.IGNORECASE)]. *)
Definition keyword_predicate (query : string) (pr : PullRequest) : result bool :=
  match re_search query (title pr) with
  | ROk true => ROk true
  | ROk false => re_search query (repo pr)
  | RErr e => RErr e
  end.

(** [[... for pr in relevant_prs if predicate(pr)]] in
    [GithubController.build_pr_items]: the records kept, or the first
    exception raised by the predicate. *)
Fixpoint select_prs (predicate : PullRequest -> result bool) (prs : list PullRequest)
  : result (list PullRequest) :=
  match prs with
  | [] => ROk []
  | pr :: prs' =>
      match predicate pr with
      | RErr e => RErr e
      | ROk b =>
          match select_prs predicate prs' with
          | RErr e => RErr e
          | ROk kept => ROk (if b then pr :: kept else kept)
          end
      end
  end.

(** The records shown for a keyword query over [open_prs]. *)
Definition query_filter (query : string) (open_prs : list PullRequest)
  : result (list PullRequest) :=
  select_prs (keyword_predicate query) open_prs.


(** ** The [re] module as a library

    The code does not implement regular expressions; it calls [re]. Here
    [re] is a parameter: a [re_lib] gives, for a pattern and flags, what
    [re.compile(pattern, flags)] gives, either the compiled pattern's
    [search] read in a boolean context (a match object is always true,
    [None] is false) or the message of the [re.error] it raises. Python's
    [re.search(pattern, s, flags)] is [re.compile(pattern, flags).search(s)].
    A [string] holds the UTF-8 bytes of the Python [str], so any text and
    any behaviour of [re] on it is a [re_lib]. The fragment above is one
    such library for the patterns it covers. *)

Inductive re_flag := IGNORECASE.

Definition re_lib : Type := string -> re_flag -> (string -> bool) + string.

(** [re.search(pattern, s, re.IGNORECASE)] in a boolean context. *)
Definition lib_re_search (lib : re_lib) (pattern s : string) : result bool :=
  match lib pattern IGNORECASE with
  | inl search_ => ROk (search_ s)
  | inr msg => RErr (ExcRe msg)
  end.

(** The lambda of [KeywordQueryEventListener.on_event]. *)
Definition lib_keyword_predicate (lib : re_lib) (query : string) (pr : PullRequest) : result bool :=
  match lib_re_search lib query (title pr) with
  | ROk true => ROk true
  | ROk false => lib_re_search lib query (repo pr)
  | RErr e => RErr e
  end.

(** The records shown for a keyword query over [open_prs]. *)
Definition lib_query_filter (lib : re_lib) (query : string) (open_prs : list PullRequest)
  : result (list PullRequest) :=
  select_prs (lib_keyword_predicate lib query) open_prs.

(** ** Result items and event listeners ([src/main.py]) *)

Inductive PrType := OPEN | APPROVED.

Inductive Icon :=
| GITHUB_LOGO
| GITHUB_APPROVED_LOGO
| GITHUB_USER_LOGO
| GITHUB_USER_APPROVED_LOGO
| ERROR_ICON.

(** The two dicts passed to [ExtensionCustomAction]:
    [{"event": CustomActionEvent.MULTISELECT, "pr_url": url}] (the enum
    member returned by [CustomActionEvent.multiselect], passed by
    reference) and [{"event": CustomActionEvent.APPROVED_PRS}]. *)
Inductive CustomData :=
| DataMultiselect (pr_url : string)
| DataApprovedPrs.

#[warnings="-register-all"]
Inductive Action :=
| DoNothingAction
| OpenUrlAction (u : string)
| ActionList (actions : list Action)
| ExtensionCustomAction (data : CustomData) (keep_app_open : bool).

Record ResultItem := mkItem {
  item_name : string;
  item_description : string;
  item_icon : Icon;
  item_on_enter : Action;
  item_on_alt_enter : option Action
}.

(** [str(n)] for a non-negative [int]. *)
Fixpoint digits_of_nat (fuel n : nat) (acc : string) : string :=
  match fuel with
  | O => acc
  | S f =>
      let acc' := String (ascii_of_nat (48 + Nat.modulo n 10)) acc in
      if Nat.ltb n 10 then acc' else digits_of_nat f (Nat.div n 10) acc'
  end.

Definition str_of_nat (n : nat) : string := digits_of_nat (S n) n "".

Definition newline_str : string := String newline EmptyString.

(** The [ExtensionResultItem] built for one pull request. *)
Definition pr_item (user : string) (icon user_icon : Icon) (pr : PullRequest) : ResultItem :=
  mkItem (title pr) (repo pr ++ newline_str ++ url pr)%string
         (if negb (String.eqb (created_by pr) user) then icon else user_icon)
         (OpenUrlAction (url pr))
         (Some (ExtensionCustomAction (DataMultiselect (url pr)) true)).

(** [GithubController.__build_approved_button]. *)
Definition approved_button (approved_prs : list PullRequest) : ResultItem :=
  mkItem "Approved Pull Requests"
         ("View " ++ str_of_nat (List.length approved_prs) ++ " approved Pull Requests")%string
         GITHUB_APPROVED_LOGO
         (ExtensionCustomAction DataApprovedPrs true)
         None.

Definition error_item (e : GithubError) : ResultItem :=
  mkItem (err_title e) (err_description e) ERROR_ICON DoNothingAction None.

(** [CustomActionEvent.multiselect(pr_type)]: stores [pr_type] in the
    attribute [multiselect_value] of the enum member [MULTISELECT] (an
    Enum member is always true, so the [None] branch is never taken). The
    attribute lives on the class-level member, shared by every item built
    so far; [None] stands for the attribute not being set yet. *)
Definition multiselect (pr_type : PrType) (multiselect_value : option PrType) : option PrType :=
  Some pr_type.

Definition icons_of (pr_type : PrType) : Icon * Icon :=
  match pr_type with
  | APPROVED => (GITHUB_APPROVED_LOGO, GITHUB_USER_APPROVED_LOGO)
  | OPEN => (GITHUB_LOGO, GITHUB_USER_LOGO)
  end.

(** [GithubController.build_pr_items]: the items (or the exception that
    escapes), the new controller, and the new [multiselect_value] of the
    enum member. *)
Definition build_pr_items (net : Network) (now tdone : Z) (st : Controller)
    (ms_value : option PrType) (pr_type : PrType)
    (predicate : option (PullRequest -> result bool)) (include_approved_button : bool)
  : result (list ResultItem) * Controller * option PrType :=
  let '(r, st', _) := ctrl_get_prs net now tdone st in
  match r with
  | RErr (ExcGithub e) => (ROk [error_item e], st', ms_value)
  | RErr e => (RErr e, st', ms_value)
  | ROk (open_prs, approved_prs) =>
      let relevant_prs := match pr_type with APPROVED => approved_prs | OPEN => open_prs end in
      let '(icon, user_icon) := icons_of pr_type in
      let ms_value' := multiselect pr_type ms_value in
      let keep := fun pr => match predicate with None => ROk true | Some p => p pr end in
      match select_prs keep relevant_prs with
      | RErr e => (RErr e, st', ms_value')
      | ROk kept =>
          let items := map (pr_item (ctrl_user st) icon user_icon) kept in
          (ROk (if include_approved_button && negb (Nat.eqb (List.length approved_prs) 0)
                then items ++ [approved_button approved_prs] else items),
           st', ms_value')
      end
  end.

(** The extension's state: [github_controller], [multiselect_urls], and
    the attribute [multiselect_value] of [CustomActionEvent.MULTISELECT]. *)
Record Ext := mkExt {
  github_controller : Controller;
  multiselect_urls : list string;
  ms_value : option PrType
}.

Inductive ListenerExc :=
| LExc (e : Exc)
| AttributeError (attr : string).

(** What a listener's [on_event] gives back: [RenderResultListAction(items)],
    an exception, or [None]. *)
Inductive Response :=
| Render (items : list ResultItem)
| Raises (e : ListenerExc)
| NoResponse.

Definition render (r : result (list ResultItem)) : Response :=
  match r with ROk items => Render items | RErr e => Raises (LExc e) end.

(** [KeywordQueryEventListener.on_event]; [arg] is the query argument,
    [None] when the user typed none ([get_argument(default="")]). *)
Definition keyword_query_event (lib : re_lib) (net : Network) (now tdone : Z) (ext : Ext)
    (arg : option string) : Response * Ext :=
  let query := match arg with Some q => q | None => "" end in
  let '(r, st', ms') :=
    build_pr_items net now tdone (github_controller ext) (ms_value ext) OPEN
                   (Some (lib_keyword_predicate lib query)) true in
  (render r, mkExt st' [] ms').

Definition multiselect_warning : string :=
  "⚠️ Do not write a query if you want to open multiple Pull Requests! ⚠️".

Definition open_selected_item (urls : list string) : ResultItem :=
  mkItem ("Open " ++ str_of_nat (List.length urls) ++ " Pull Requests")%string
         multiselect_warning GITHUB_APPROVED_LOGO (ActionList (map OpenUrlAction urls)) None.

(** [MultiselectEventListener.on_event]. *)
Definition multiselect_event (net : Network) (now tdone : Z) (ext : Ext) (data : CustomData)
  : Response * Ext :=
  match data with
  | DataApprovedPrs => (NoResponse, ext)
  | DataMultiselect u =>
      let urls := multiselect_urls ext ++ [u] in
      match ms_value ext with
      | None =>
          (Raises (AttributeError "multiselect_value"),
           mkExt (github_controller ext) urls (ms_value ext))
      | Some t =>
          let '(r, st', ms') :=
            build_pr_items net now tdone (github_controller ext) (ms_value ext) t
              (Some (fun pr => ROk (negb (existsb (fun v => String.eqb (url pr) v) urls)))) false in
          (match r with
           | ROk items => Render (open_selected_item urls :: items)
           | RErr e => Raises (LExc e)
           end, mkExt st' urls ms')
      end
  end.

(** [ApprovedPrsEventListener.on_event]. *)
Definition approved_prs_event (net : Network) (now tdone : Z) (ext : Ext) (data : CustomData)
  : Response * Ext :=
  match data with
  | DataMultiselect _ => (NoResponse, ext)
  | DataApprovedPrs =>
      let '(r, st', ms') :=
        build_pr_items net now tdone (github_controller ext) (ms_value ext) APPROVED None false in
      (render r, mkExt st' (multiselect_urls ext) ms')
  end.

(** [PreferencesEventListener] and [PreferencesUpdateEventListener]: a new
    [GithubController] (and a new [Github] client) with the user of the
    preferences. *)
Definition preferences_event (user : string) (ext : Ext) : Ext :=
  mkExt (mkController user None None) (multiselect_urls ext) (ms_value ext).

(** ** Helpers for stating what the items show *)

(** Whether [predicate] keeps [pr] in the comprehension of
    [build_pr_items], reading a raised exception as not kept. *)
Definition kept_by (predicate : option (PullRequest -> result bool)) (pr : PullRequest) : bool :=
  match predicate with
  | None => true
  | Some p => match p pr with ROk b => b | RErr _ => false end
  end.

(** The tail [items.append(self.__build_approved_button(approved_prs))]
    adds, if any. *)
Definition button_part (include_approved_button : bool) (approved_prs : list PullRequest)
  : list ResultItem :=
  if include_approved_button && negb (Nat.eqb (List.length approved_prs) 0)
  then [approved_button approved_prs] else [].

(** * Lemmas *)

(** ** Generic facts about the stable sort *)

Section StableSortFacts.
Context {A : Type} (key : A -> Z) (reverse : bool).

Lemma sort_insert_perm x l :
  Permutation (sort_insert key reverse x l) (x :: l).
Proof.
  induction l as [|y l IH]; simpl; [reflexivity|].
  destruct (goes_before key reverse x y); [reflexivity|].
  rewrite IH. apply perm_swap.
Qed.

Lemma py_sort_perm l : Permutation (py_sort key reverse l) l.
Proof.
  induction l as [|x l IH]; simpl; [reflexivity|].
  rewrite sort_insert_perm. now apply perm_skip.
Qed.

Lemma goes_before_total x y :
  goes_before key reverse x y = false -> goes_before key reverse y x = true.
Proof.
  unfold goes_before; destruct reverse; intros H;
    apply Z.leb_gt in H; apply Z.leb_le; lia.
Qed.

Let R := fun x y => goes_before key reverse x y = true.

Lemma sort_insert_sorted x l : Sorted R l -> Sorted R (sort_insert key reverse x l).
Proof.
  induction l as [|y l IH]; simpl; intros Hs.
  - repeat constructor.
  - case_eq (goes_before key reverse x y); intros Hxy.
    + constructor; [exact Hs|]. now constructor.
    + apply Sorted_inv in Hs as [Hl Hhd].
      constructor; [now apply IH|].
      destruct l as [|z l]; simpl.
      * constructor. now apply goes_before_total.
      * destruct (goes_before key reverse x z); constructor.
        -- now apply goes_before_total.
        -- now inversion Hhd.
Qed.

Lemma py_sort_sorted l : Sorted R (py_sort key reverse l).
Proof.
  induction l as [|x l IH]; simpl; [constructor|].
  now apply sort_insert_sorted.
Qed.
End StableSortFacts.

Section TwoKeys.
Context {A : Type} (p : A -> bool).

Lemma sort_insert_two_keys x A0 B :
  Forall (fun y => p y = true) A0 -> Forall (fun y => p y = false) B ->
  sort_insert (two_key p) false x (A0 ++ B)
  = if p x then x :: A0 ++ B else A0 ++ x :: B.
Proof.
  intros HA HB. induction HA as [|y A0 Hy HA IH]; cbn [app sort_insert].
  - destruct B as [|y B]; simpl; [now destruct (p x)|].
    inversion HB; subst. unfold goes_before, two_key.
    destruct (p x); rewrite H1; reflexivity.
  - assert (Hb : goes_before (two_key p) false x y = p x).
    { unfold goes_before, two_key. rewrite Hy. now destruct (p x). }
    rewrite Hb. destruct (p x) eqn:Hx; simpl; [reflexivity|].
    f_equal. exact IH.
Qed.

(** Sorting with a key that takes only the values -1 and 0 moves the
    elements of key -1 ahead, each group keeping its order. *)
Lemma py_sort_two_keys l :
  py_sort (two_key p) false l
  = List.filter p l ++ List.filter (fun x => negb (p x)) l.
Proof.
  induction l as [|x l IH]; simpl; [reflexivity|].
  rewrite IH, sort_insert_two_keys.
  - destruct (p x); reflexivity.
  - apply Forall_forall. intros y Hy. now apply filter_In in Hy as [_ Hy].
  - apply Forall_forall. intros y Hy. apply filter_In in Hy as [_ Hy].
    now destruct (p y).
Qed.
End TwoKeys.

Lemma order_prs_split user prs :
  order_prs user prs
  = List.filter (own user) (recent_first prs)
    ++ List.filter (fun pr => negb (own user pr)) (recent_first prs).
Proof. exact (py_sort_two_keys (own user) (recent_first prs)). Qed.

Lemma recent_first_sorted prs : Sorted newer_first (recent_first prs).
Proof.
  eapply Sorted_ind; [constructor | | apply py_sort_sorted].
  intros a l _ Hs Hhd. constructor; [exact Hs|].
  inversion Hhd; subst; constructor.
  unfold newer_first. now apply Z.leb_le.
Qed.

Lemma filter_strongly_sorted {A} (R : A -> A -> Prop) (p : A -> bool) l :
  StronglySorted R l -> StronglySorted R (List.filter p l).
Proof.
  induction 1 as [|a l Hs IH Hall]; simpl; [constructor|].
  destruct (p a); [|exact IH].
  constructor; [exact IH|].
  apply Forall_forall. intros y Hy. apply filter_In in Hy as [Hy _].
  exact (proj1 (Forall_forall _ _) Hall y Hy).
Qed.

Lemma filter_sorted_newer_first (p : PullRequest -> bool) l :
  Sorted newer_first l -> Sorted newer_first (List.filter p l).
Proof.
  intros Hs. apply StronglySorted_Sorted, filter_strongly_sorted.
  apply Sorted_StronglySorted; [|exact Hs].
  unfold newer_first. intros a b c H1 H2. lia.
Qed.

Lemma filter_idem {A} (p : A -> bool) l :
  List.filter p (List.filter p l) = List.filter p l.
Proof.
  induction l as [|x l IH]; simpl; [reflexivity|].
  destruct (p x) eqn:Hx; simpl; [rewrite Hx; f_equal|]; exact IH.
Qed.

Lemma filter_none {A} (p q : A -> bool) l :
  (forall x, q x = true -> p x = false) -> List.filter p (List.filter q l) = [].
Proof.
  intros H. induction l as [|x l IH]; simpl; [reflexivity|].
  destruct (q x) eqn:Hq; simpl; [rewrite (H x Hq)|]; exact IH.
Qed.

Lemma filter_subseq {A} (p : A -> bool) l : subseq (List.filter p l) l.
Proof.
  induction l as [|x l IH]; simpl; [constructor|].
  destruct (p x); constructor; exact IH.
Qed.

Lemma in_order_prs user prs x :
  In x (order_prs user prs) <-> In x prs /\ is_draft x = false.
Proof.
  assert (Hp : In x (recent_first prs) <-> In x (non_draft prs)).
  { split; apply Permutation_in; [|symmetry]; apply py_sort_perm. }
  rewrite order_prs_split, in_app_iff, !filter_In, Hp.
  unfold non_draft. rewrite filter_In.
  destruct (own user x), (is_draft x); simpl; intuition congruence.
Qed.

Lemma pr_is_approved_iff pr user :
  pr_is_approved pr user = true
  <-> (2 <= List.length (approves pr))%nat \/ In user (approves pr).
Proof.
  unfold pr_is_approved, str_in. rewrite orb_true_iff, Z.leb_le, existsb_exists.
  split; intros [H|H].
  - left. lia.
  - right. destruct H as [y [Hy He]]. apply String.eqb_eq in He. now subst.
  - left. lia.
  - right. exists user. split; [exact H|]. apply String.eqb_refl.
Qed.

Lemma own_iff user pr : own user pr = true <-> created_by pr = user.
Proof. unfold own. apply String.eqb_eq. Qed.

Lemma fold_case_idem c : fold_case (fold_case c) = fold_case c.
Proof. destruct c as [[] [] [] [] [] [] [] []]; reflexivity. Qed.

Lemma fold_case_newline c : Ascii.eqb (fold_case c) newline = Ascii.eqb c newline.
Proof. destruct c as [[] [] [] [] [] [] [] []]; reflexivity. Qed.

Lemma deriv_fold_case c r : deriv (fold_case c) r = deriv c r.
Proof.
  induction r as [| | d | | r1 IH1 r2 IH2 | r1 IH1 r2 IH2 | r1 IH1]; simpl;
    rewrite ?fold_case_idem, ?fold_case_newline, ?IH1, ?IH2; reflexivity.
Qed.

Lemma prefix_match_fold_case r s :
  prefix_match r (map fold_case s) = prefix_match r s.
Proof.
  revert r. induction s as [|c s IH]; intros r; simpl; [reflexivity|].
  now rewrite deriv_fold_case, IH.
Qed.

Lemma suffixes_map {A B} (f : A -> B) s :
  suffixes (map f s) = map (map f) (suffixes s).
Proof. induction s as [|x s IH]; simpl; [reflexivity|]. now rewrite IH. Qed.

Lemma existsb_map' {A B} (p : B -> bool) (f : A -> B) l :
  existsb p (map f l) = existsb (fun x => p (f x)) l.
Proof. induction l as [|x l IH]; simpl; [reflexivity|]. now rewrite IH. Qed.

(** Matching ignores the case of the subject. *)
Lemma search_fold_case r s : search r (map fold_case s) = search r s.
Proof.
  unfold search. rewrite suffixes_map, existsb_map'.
  induction (suffixes s) as [|t ts IH]; simpl; [reflexivity|].
  now rewrite prefix_match_fold_case, IH.
Qed.

Lemma select_prs_total (p : PullRequest -> bool) (predicate : PullRequest -> result bool) l :
  (forall pr, predicate pr = ROk (p pr)) -> select_prs predicate l = ROk (List.filter p l).
Proof.
  intros H. induction l as [|pr l IH]; simpl; [reflexivity|].
  rewrite H, IH. reflexivity.
Qed.

Lemma filter_andb_length {A} (p q : A -> bool) l :
  (List.length (List.filter (fun x => p x && q x) l) <= List.length (List.filter p l))%nat.
Proof.
  induction l as [|x l IH]; simpl; [lia|].
  destruct (p x), (q x); simpl; lia.
Qed.

Lemma ctrl_fetch_prs_count net td st : snd (ctrl_fetch_prs net td st) = 1%nat.
Proof.
  unfold ctrl_fetch_prs. destruct (github_get_prs net (gh_repos st)) as [[prs|e] r].
  all: reflexivity.
Qed.

Lemma ctrl_fetch_prs_ok net td st prs :
  fst (github_get_prs net (gh_repos st)) = ROk prs ->
  fst (fst (ctrl_fetch_prs net td st)) = ROk (order_filter_prs (ctrl_user st) prs) /\
  last_request (snd (fst (ctrl_fetch_prs net td st)))
  = Some (td, order_filter_prs (ctrl_user st) prs).
Proof.
  unfold ctrl_fetch_prs. destruct (github_get_prs net (gh_repos st)) as [[prs'|e] r].
  all: simpl; intros H; inversion H; subst; auto.
Qed.

Lemma ctrl_fetch_prs_err net td st e :
  fst (github_get_prs net (gh_repos st)) = RErr e ->
  fst (fst (ctrl_fetch_prs net td st)) = RErr e /\
  last_request (snd (fst (ctrl_fetch_prs net td st))) = last_request st.
Proof.
  unfold ctrl_fetch_prs. destruct (github_get_prs net (gh_repos st)) as [[prs'|e'] r].
  all: simpl; intros H; inversion H; subst; auto.
Qed.

Lemma ctrl_get_prs_stale net now td st :
  stale st now -> ctrl_get_prs net now td st = ctrl_fetch_prs net td st.
Proof.
  unfold stale, ctrl_get_prs. destruct (last_request st) as [[t0 snap]|]; [|reflexivity].
  intros H. destruct (now - t0 <? one_minute) eqn:E; [apply Z.ltb_lt in E; lia|reflexivity].
Qed.

Lemma ctrl_get_prs_fetched_stores net now td st snap st1 :
  ctrl_get_prs net now td st = (ROk snap, st1, 1%nat) -> last_request st1 = Some (td, snap).
Proof.
  unfold ctrl_get_prs.
  assert (Hf : ctrl_fetch_prs net td st = (ROk snap, st1, 1%nat) -> last_request st1 = Some (td, snap)).
  { unfold ctrl_fetch_prs. destruct (github_get_prs net (gh_repos st)) as [[prs|e] r].
    all: simpl; intros H; inversion H; reflexivity. }
  destruct (last_request st) as [[t0 s0]|]; [|exact Hf].
  destruct (now - t0 <? one_minute); [discriminate|exact Hf].
Qed.

(** * Claims *)

(** C1: in the sequence produced by the ordering step (drafts dropped,
    stable sort by [createdAt] descending, then stable sort moving the
    user's pull requests ahead), every pull request of [user] comes before
    every other one, and within the user's group and within the others'
    group the records are non-increasing by [createdAt]. *)
Theorem order_prs_own_first_recent_first user prs :
  let s := order_prs user prs in
  (forall i j a b,
      nth_error s i = Some a -> nth_error s j = Some b ->
      created_by a = user -> created_by b <> user -> (i < j)%nat) /\
  Sorted newer_first (List.filter (fun pr => String.eqb (created_by pr) user) s) /\
  Sorted newer_first (List.filter (fun pr => negb (String.eqb (created_by pr) user)) s).
Proof.
  intros s. unfold s. rewrite order_prs_split.
  set (S := recent_first prs).
  set (A := List.filter (own user) S).
  set (B := List.filter (fun pr => negb (own user pr)) S).
  split; [|split].
  - intros i j a b Ha Hb Hua Hub.
    assert (Hi : (i < List.length A)%nat).
    { destruct (Nat.lt_ge_cases i (List.length A)) as [H|H]; [exact H|].
      rewrite nth_error_app2 in Ha by exact H.
      apply nth_error_In in Ha. unfold B in Ha. apply filter_In in Ha as [_ Ha].
      apply own_iff in Hua. rewrite Hua in Ha. discriminate. }
    assert (Hj : (List.length A <= j)%nat).
    { destruct (Nat.lt_ge_cases j (List.length A)) as [H|H]; [|exact H].
      rewrite nth_error_app1 in Hb by exact H.
      apply nth_error_In in Hb. unfold A in Hb. apply filter_In in Hb as [_ Hb].
      apply own_iff in Hb. contradiction. }
    lia.
  - change (fun pr => String.eqb (created_by pr) user) with (own user).
    unfold A, B. rewrite filter_app, filter_idem, filter_none, app_nil_r.
    + apply filter_sorted_newer_first, recent_first_sorted.
    + intros x Hx. now destruct (own user x).
  - change (fun pr => negb (String.eqb (created_by pr) user))
      with (fun pr => negb (own user pr)).
    unfold A, B. rewrite filter_app, filter_idem, filter_none by
      (intros x Hx; now rewrite Hx).
    apply filter_sorted_newer_first, recent_first_sorted.
Qed.

(** C2: a non-draft input record ends in [approvedPRs] iff its
    [approves] collection has at least two entries or contains [user];
    otherwise it ends in [openPRs]. *)
Theorem approval_partition user prs pr :
  In pr prs -> is_draft pr = false ->
  (In pr (snd (order_filter_prs user prs))
   <-> (2 <= List.length (approves pr))%nat \/ In user (approves pr)) /\
  (In pr (fst (order_filter_prs user prs))
   <-> ~ ((2 <= List.length (approves pr))%nat \/ In user (approves pr))).
Proof.
  intros Hin Hd.
  assert (Hs : In pr (order_prs user prs)) by (apply in_order_prs; auto).
  unfold order_filter_prs, in_place_filter; simpl.
  rewrite !filter_In, <- pr_is_approved_iff.
  destruct (pr_is_approved pr user); simpl; intuition congruence.
Qed.

Lemma approval_partition_witness :
  let pr := mkPR "repo" "fix" "https://h/pr/1" false "bob" 0 ["alice"] in
  (In pr [pr] /\ is_draft pr = false) /\
  ((In pr (snd (order_filter_prs "alice" [pr]))
    <-> (2 <= List.length (approves pr))%nat \/ In "alice" (approves pr)) /\
   (In pr (fst (order_filter_prs "alice" [pr]))
    <-> ~ ((2 <= List.length (approves pr))%nat \/ In "alice" (approves pr)))).
Proof.
  intros pr. split; [split; [left; reflexivity | reflexivity]|].
  apply approval_partition; [left; reflexivity | reflexivity].
Defined.

(** C7: [openPRs] and [approvedPRs] are disjoint, each keeps the relative
    order of the ordered pre-partition sequence, and together they hold
    exactly the non-draft input records. *)
Theorem partition_disjoint_ordered_complete user prs :
  let s := order_prs user prs in
  let '(open_prs, approved_prs) := order_filter_prs user prs in
  (forall x, In x open_prs -> ~ In x approved_prs) /\
  subseq open_prs s /\ subseq approved_prs s /\
  (forall x, In x open_prs \/ In x approved_prs <-> In x prs /\ is_draft x = false).
Proof.
  intros s. unfold order_filter_prs, in_place_filter. fold s.
  split; [|split; [|split]].
  - intros x H1 H2. apply filter_In in H1 as [_ H1]. apply filter_In in H2 as [_ H2].
    rewrite H1 in H2. discriminate.
  - apply filter_subseq.
  - apply filter_subseq.
  - intros x. rewrite !filter_In. unfold s. rewrite in_order_prs.
    destruct (negb (pr_is_approved x user)); simpl; intuition congruence.
Qed.

(** C8: no draft input record appears in [openPRs] or [approvedPRs]. *)
Theorem drafts_excluded user prs x :
  In x prs -> is_draft x = true ->
  ~ In x (fst (order_filter_prs user prs)) /\ ~ In x (snd (order_filter_prs user prs)).
Proof.
  intros _ Hd. unfold order_filter_prs, in_place_filter; simpl.
  split; intros H; apply filter_In in H as [H _];
    apply in_order_prs in H as [_ H]; congruence.
Qed.

Lemma drafts_excluded_witness :
  let x := mkPR "repo" "wip" "https://h/pr/2" true "alice" 5 ["bob"; "carol"] in
  let y := mkPR "repo" "ready" "https://h/pr/3" false "bob" 7 [] in
  (In x [y; x] /\ is_draft x = true) /\
  ~ In x (fst (order_filter_prs "alice" [y; x])) /\
  ~ In x (snd (order_filter_prs "alice" [y; x])).
Proof.
  intros x y. split; [split; [right; left; reflexivity | reflexivity]|].
  apply drafts_excluded; [right; left; reflexivity | reflexivity].
Defined.

(** C3: when one repository's [/pulls] request raises (in the child process
    running [__fetch_prs]), [Github.get_prs] does not raise: it returns the
    pull requests of the other repositories, and the controller caches that
    partial snapshot. *)
Theorem fetch_failure_in_child_returns_partial :
  net_pulls net_b_down repo_b_url = None /\
  github_get_prs net_b_down None = (ROk [pr_a], Some (Some [repo_a_url; repo_b_url])) /\
  ctrl_get_prs net_b_down 0 1 (mkController "alice" None None)
  = (ROk ([pr_a], []),
     mkController "alice" (Some (1, ([pr_a], []))) (Some (Some [repo_a_url; repo_b_url])),
     1%nat).
Proof. vm_compute. repeat split. Qed.

(** C4 (counterexample): a reviewer with two [APPROVED] reviews gives a
    built record whose [approves] has two entries, not one. *)
Lemma approves_counts_reapproval :
  run_processes [build_pr net_bob_twice raw_a] []
  = [(raw_url raw_a,
      mkPR "a" "Fix login" "https://ghe.example/org/a/pull/1" false "bob" 1000 ["bob"; "bob"])] /\
  List.length (get_pr_approves bob_twice) = 2%nat /\
  List.length (get_pr_approves bob_twice) <> 1%nat.
Proof. vm_compute. split; [reflexivity|]. split; [reflexivity|]. discriminate. Qed.

(** C4 (as the code does it): the [approves] of a built record lists one
    login per [APPROVED] review, so a reviewer who approved twice counts
    twice and alone makes the pull request approved. *)
Theorem approves_one_entry_per_approval net pr t reviews login user :
  raw_created_at pr = Some t -> net_reviews net (raw_url pr) = Some reviews ->
  (2 <= List.length (List.filter (fun r => String.eqb (rv_state r) "APPROVED"
                                            && String.eqb (rv_login r) login) reviews))%nat ->
  exists built,
    run_processes [build_pr net pr] [] = [(raw_url pr, built)] /\
    approves built = get_pr_approves reviews /\
    List.length (approves built)
    = List.length (List.filter (fun r => String.eqb (rv_state r) "APPROVED") reviews) /\
    (2 <= List.length (approves built))%nat /\
    pr_is_approved built user = true.
Proof.
  intros Ht Hr H2.
  unfold run_processes, build_pr. rewrite Ht, Hr. simpl.
  eexists. split; [reflexivity|]. simpl.
  assert (Hl : List.length (get_pr_approves reviews)
               = List.length (List.filter (fun r => String.eqb (rv_state r) "APPROVED") reviews))
    by (unfold get_pr_approves; apply length_map).
  split; [reflexivity|]. split; [exact Hl|].
  pose proof (filter_andb_length (fun r => String.eqb (rv_state r) "APPROVED")
                                 (fun r => String.eqb (rv_login r) login) reviews) as Hle.
  assert (Hge : (2 <= List.length (get_pr_approves reviews))%nat) by lia.
  split; [exact Hge|].
  apply pr_is_approved_iff. left. exact Hge.
Qed.

Lemma approves_one_entry_per_approval_witness :
  (raw_created_at raw_a = Some 1000 /\ net_reviews net_bob_twice (raw_url raw_a) = Some bob_twice /\
   (2 <= List.length (List.filter (fun r => String.eqb (rv_state r) "APPROVED"
                                             && String.eqb (rv_login r) "bob") bob_twice))%nat) /\
  exists built,
    run_processes [build_pr net_bob_twice raw_a] [] = [(raw_url raw_a, built)] /\
    approves built = get_pr_approves bob_twice /\
    List.length (approves built)
    = List.length (List.filter (fun r => String.eqb (rv_state r) "APPROVED") bob_twice) /\
    (2 <= List.length (approves built))%nat /\
    pr_is_approved built "alice" = true.
Proof.
  split; [split; [reflexivity | split; [reflexivity | vm_compute; lia]]|].
  apply (approves_one_entry_per_approval net_bob_twice raw_a 1000 bob_twice "bob" "alice");
    [reflexivity | reflexivity | vm_compute; lia].
Defined.

(** C5: if a call at [t1] fetched and stored a snapshot, a call at [t2]
    with [t2 - t1] under a minute returns that snapshot and does not
    fetch (the stored time is read after the fetch, not before [t1]); a
    call on a stale entry (none, or a minute old) fetches exactly once and,
    when the fetch succeeds, stores the ordered and partitioned fresh
    result with the time read after the fetch. *)
Theorem cache_ttl_one_minute :
  (forall net1 net2 st t1 td1 t2 td2 snap st1,
      ctrl_get_prs net1 t1 td1 st = (ROk snap, st1, 1%nat) ->
      t1 <= td1 -> t2 - t1 < one_minute ->
      ctrl_get_prs net2 t2 td2 st1 = (ROk snap, st1, 0%nat)) /\
  (forall net now td st,
      stale st now ->
      snd (ctrl_get_prs net now td st) = 1%nat /\
      forall prs, fst (github_get_prs net (gh_repos st)) = ROk prs ->
        fst (fst (ctrl_get_prs net now td st)) = ROk (order_filter_prs (ctrl_user st) prs) /\
        last_request (snd (fst (ctrl_get_prs net now td st)))
        = Some (td, order_filter_prs (ctrl_user st) prs)).
Proof.
  split.
  - intros net1 net2 st t1 td1 t2 td2 snap st1 H1 Hmono Hlt.
    apply ctrl_get_prs_fetched_stores in H1.
    unfold ctrl_get_prs. rewrite H1.
    replace (t2 - td1 <? one_minute) with true; [reflexivity|].
    symmetry. apply Z.ltb_lt. lia.
  - intros net now td st Hs. rewrite ctrl_get_prs_stale by exact Hs.
    split; [apply ctrl_fetch_prs_count|]. apply ctrl_fetch_prs_ok.
Qed.

Lemma cache_ttl_one_minute_witness :
  let st0 := mkController "alice" None None in
  let st1 := mkController "alice" (Some (5, ([pr_a], []))) (Some (Some [repo_a_url; repo_b_url])) in
  (ctrl_get_prs net_b_down 0 5 st0 = (ROk ([pr_a], []), st1, 1%nat) /\
   0 <= 5 /\ 59999999 - 0 < one_minute) /\
  ctrl_get_prs net_bob_twice 59999999 60000000 st1 = (ROk ([pr_a], []), st1, 0%nat) /\
  stale st1 60000005 /\
  snd (ctrl_get_prs net_b_down 60000005 60000006 st1) = 1%nat.
Proof.
  intros st0 st1.
  assert (H1 : ctrl_get_prs net_b_down 0 5 st0 = (ROk ([pr_a], []), st1, 1%nat))
    by (vm_compute; reflexivity).
  assert (Hst : stale st1 60000005) by (vm_compute; discriminate).
  split; [split; [exact H1 | split; [discriminate | reflexivity]]|].
  split; [|split; [exact Hst|]].
  - apply (proj1 cache_ttl_one_minute net_b_down net_bob_twice st0 0 5); [exact H1 | discriminate | reflexivity].
  - apply (proj2 cache_ttl_one_minute net_b_down 60000005 60000006 st1 Hst).
Defined.

(** C6: when a call fetches and [Github.get_prs] raises, the stored entry
    is left as it was, the error is returned to the caller, and a later
    call (at a time not before this one) fetches again. *)
Theorem fetch_failure_keeps_entry_and_retries net now td st e :
  stale st now ->
  fst (github_get_prs net (gh_repos st)) = RErr e ->
  fst (fst (ctrl_get_prs net now td st)) = RErr e /\
  last_request (snd (fst (ctrl_get_prs net now td st))) = last_request st /\
  snd (ctrl_get_prs net now td st) = 1%nat /\
  (forall net' now' td', now <= now' ->
     snd (ctrl_get_prs net' now' td' (snd (fst (ctrl_get_prs net now td st)))) = 1%nat).
Proof.
  intros Hs He. rewrite ctrl_get_prs_stale by exact Hs.
  destruct (ctrl_fetch_prs_err net td st e He) as [Hr Hl].
  split; [exact Hr|]. split; [exact Hl|]. split; [apply ctrl_fetch_prs_count|].
  intros net' now' td' Hle. rewrite ctrl_get_prs_stale; [apply ctrl_fetch_prs_count|].
  unfold stale in *. rewrite Hl.
  destruct (last_request st) as [[t0 snap]|]; [lia|exact I].
Qed.

Lemma fetch_failure_keeps_entry_and_retries_witness :
  let net := mkNetwork None (fun _ => None) (fun _ => None) in
  let st := mkController "alice" (Some (0, ([pr_a], []))) None in
  (stale st 60000000 /\
   fst (github_get_prs net (gh_repos st)) = RErr (ExcGithub fetch_error)) /\
  fst (fst (ctrl_get_prs net 60000000 60000001 st)) = RErr (ExcGithub fetch_error) /\
  last_request (snd (fst (ctrl_get_prs net 60000000 60000001 st))) = last_request st /\
  snd (ctrl_get_prs net 60000000 60000001 st) = 1%nat /\
  (forall net' now' td', 60000000 <= now' ->
     snd (ctrl_get_prs net' now' td' (snd (fst (ctrl_get_prs net 60000000 60000001 st)))) = 1%nat).
Proof.
  intros net st.
  assert (Hs : stale st 60000000) by (vm_compute; discriminate).
  assert (He : fst (github_get_prs net (gh_repos st)) = RErr (ExcGithub fetch_error))
    by reflexivity.
  split; [split; [exact Hs | exact He]|].
  exact (fetch_failure_keeps_entry_and_retries net 60000000 60000001 st _ Hs He).
Defined.

(** C9 (counterexample): the pattern ["("] does not compile, and the
    query over a non-empty [openPRs] raises [re.error] instead of returning
    the (empty) list of matching records. *)
Lemma query_filter_invalid_pattern_raises :
  re_compile "(" = CompileError missing_paren /\
  query_filter "(" [pr_a] = RErr (ExcRe missing_paren) /\
  ~ (exists kept, query_filter "(" [pr_a] = ROk kept).
Proof.
  split; [reflexivity|]. split; [reflexivity|].
  intros [kept H]. discriminate H.
Qed.

(** C9 (as the code does it): for every implementation of [re], every
    pattern and every [openPRs]: when [re.compile(pattern, re.IGNORECASE)]
    succeeds, the query returns, in input order, exactly the records whose
    title or repository the compiled pattern's [search] finds a match in
    (either field is enough); when it raises [re.error], a query over a
    non-empty list raises that error and returns no list. *)
Theorem query_filter_spec (lib : re_lib) query l :
  match lib query IGNORECASE with
  | inl search_ =>
      exists kept,
        lib_query_filter lib query l = ROk kept /\
        kept = List.filter (fun pr => search_ (title pr) || search_ (repo pr)) l /\
        subseq kept l /\
        (forall pr, In pr kept <->
                    In pr l /\ (search_ (title pr) = true \/ search_ (repo pr) = true))
  | inr msg =>
      l <> [] -> lib_query_filter lib query l = RErr (ExcRe msg) /\
                 ~ (exists kept, lib_query_filter lib query l = ROk kept)
  end.
Proof.
  destruct (lib query IGNORECASE) as [search_|msg] eqn:Hc.
  - eexists. split; [|split; [reflexivity|split]].
    + unfold lib_query_filter. apply select_prs_total. intros pr.
      unfold lib_keyword_predicate, lib_re_search. rewrite Hc.
      destruct (search_ (title pr)); reflexivity.
    + apply filter_subseq.
    + intros pr. rewrite filter_In, orb_true_iff. reflexivity.
  - intros Hne. destruct l as [|pr l]; [contradiction|].
    assert (H : lib_query_filter lib query (pr :: l) = RErr (ExcRe msg)).
    { unfold lib_query_filter. simpl. unfold lib_keyword_predicate, lib_re_search.
      rewrite Hc. reflexivity. }
    split; [exact H|]. intros [kept Hk]. congruence.
Qed.

(** C10: the empty pattern, the default query, matches every title, and
    the query returns [openPRs] unchanged. *)
Theorem query_filter_empty_pattern l : query_filter "" l = ROk l.
Proof.
  unfold query_filter.
  transitivity (ROk (List.filter (fun _ : PullRequest => true) l)).
  - apply select_prs_total. intros pr. unfold keyword_predicate, re_search. simpl.
    unfold search. destruct (list_ascii_of_string (title pr)); reflexivity.
  - f_equal. induction l as [|pr l IH]; simpl; [reflexivity|]. now rewrite IH.
Qed.

(** * Further properties of the code *)

Lemma ctrl_get_prs_keeps_urls net now td st urls :
  gh_repos st = Some (Some urls) ->
  gh_repos (snd (fst (ctrl_get_prs net now td st))) = Some (Some urls).
Proof.
  intros Hg.
  assert (Hf : gh_repos (snd (fst (ctrl_fetch_prs net td st))) = Some (Some urls)).
  { unfold ctrl_fetch_prs, github_get_prs. rewrite Hg. reflexivity. }
  unfold ctrl_get_prs. destruct (last_request st) as [[t0 s0]|]; [|exact Hf].
  destruct (now - t0 <? one_minute); [exact Hg | exact Hf].
Qed.

Lemma ctrl_calls_keep_urls calls st urls :
  gh_repos st = Some (Some urls) -> gh_repos (ctrl_calls calls st) = Some (Some urls).
Proof.
  revert st. induction calls as [|[[net now] td] calls IH]; intros st Hg; simpl; [exact Hg|].
  apply IH, ctrl_get_prs_keeps_urls, Hg.
Qed.

(** X3: [self.repos] after a refresh that has to list the repositories.
    When the listing request or its decoding raises, or it decodes to
    [null] (the code then maps over [None] and raises), the refresh fails
    with [fetch_error] and [self.repos] is still [None], so the next
    refresh lists again. When it decodes to a value whose entries have no
    ["url"] (e.g. an error object), the refresh fails and that value is
    kept: every later call, at a time not before this one, fails with
    [fetch_error], whatever the network answers, and leaves the controller
    as it is. When it decodes to a list of URLs, that list is kept through
    every later sequence of calls, even when children fail. *)
Theorem repo_listing_outcomes net st now td :
  gh_repos st = None -> stale st now ->
  let '(r, st', n) := ctrl_get_prs net now td st in
  match net_repos net with
  | None => r = RErr (ExcGithub fetch_error) /\ gh_repos st' = None
  | Some None =>
      r = RErr (ExcGithub fetch_error) /\ gh_repos st' = Some None /\
      (forall net' now' td', now <= now' ->
         ctrl_get_prs net' now' td' st' = (RErr (ExcGithub fetch_error), st', 1%nat))
  | Some (Some urls) =>
      gh_repos st' = Some (Some urls) /\
      (forall calls, gh_repos (ctrl_calls calls st') = Some (Some urls))
  end.
Proof.
  intros Hg Hs. rewrite ctrl_get_prs_stale by exact Hs.
  unfold ctrl_fetch_prs, github_get_prs. rewrite Hg.
  destruct (net_repos net) as [[urls|]|] eqn:Hn; simpl.
  - split; [reflexivity|]. intros calls. apply ctrl_calls_keep_urls. reflexivity.
  - split; [reflexivity|]. split; [reflexivity|].
    intros net' now' td' Hle. rewrite ctrl_get_prs_stale.
    + unfold ctrl_fetch_prs, github_get_prs. simpl.
      unfold set_repos. reflexivity.
    + unfold stale in *. simpl.
      destruct (last_request st) as [[t0 snap]|]; [lia|exact I].
  - split; reflexivity.
Qed.

Lemma repo_listing_outcomes_witness :
  let net := mkNetwork (Some None) (fun _ => None) (fun _ => None) in
  let st := mkController "alice" None None in
  (gh_repos st = None /\ stale st 0) /\
  let '(r, st', n) := ctrl_get_prs net 0 1 st in
  match net_repos net with
  | None => r = RErr (ExcGithub fetch_error) /\ gh_repos st' = None
  | Some None =>
      r = RErr (ExcGithub fetch_error) /\ gh_repos st' = Some None /\
      (forall net' now' td', 0 <= now' ->
         ctrl_get_prs net' now' td' st' = (RErr (ExcGithub fetch_error), st', 1%nat))
  | Some (Some urls) =>
      gh_repos st' = Some (Some urls) /\
      (forall calls, gh_repos (ctrl_calls calls st') = Some (Some urls))
  end.
Proof.
  intros net st. split; [split; [reflexivity | exact I]|].
  exact (repo_listing_outcomes net st 0 1 eq_refl I).
Defined.

(** X4: approval is monotone: a pull request that [pr_is_approved] accepts
    stays approved when more approving logins are added. *)
Theorem pr_is_approved_more_approvals pr extra user :
  pr_is_approved pr user = true ->
  pr_is_approved (mkPR (repo pr) (title pr) (url pr) (is_draft pr) (created_by pr)
                       (created_at pr) (approves pr ++ extra)) user = true.
Proof.
  rewrite !pr_is_approved_iff. simpl. rewrite length_app, in_app_iff. intros [H|H]; [left; lia|right; left; exact H].
Qed.

Lemma pr_is_approved_more_approvals_witness :
  pr_is_approved (mkPR "a" "t" "u" false "bob" 0 ["alice"]) "alice" = true /\
  pr_is_approved (mkPR "a" "t" "u" false "bob" 0 (["alice"] ++ ["carol"])) "alice" = true.
Proof.
  split; [reflexivity|].
  exact (pr_is_approved_more_approvals (mkPR "a" "t" "u" false "bob" 0 ["alice"]) ["carol"] "alice" eq_refl).
Defined.

(** X5: [in_place_filter] splits the list: the elements left in the array
    are those satisfying the predicate, the returned ones are the others,
    both in their original order, and together they are a permutation of
    the input. *)
Theorem in_place_filter_partition {A} (array : list A) (predicate : A -> bool) :
  let '(kept, removed) := in_place_filter array predicate in
  Permutation (kept ++ removed) array /\
  subseq kept array /\ subseq removed array /\
  (forall x, In x kept -> predicate x = true) /\
  (forall x, In x removed -> predicate x = false).
Proof.
  unfold in_place_filter. split; [|split; [apply filter_subseq|split; [apply filter_subseq|split]]].
  - induction array as [|x l IH]; simpl; [reflexivity|].
    destruct (predicate x); simpl.
    + now apply perm_skip.
    + rewrite <- Permutation_middle. now apply perm_skip.
  - intros x Hx. now apply filter_In in Hx as [_ Hx].
  - intros x Hx. apply filter_In in Hx as [_ Hx]. now destruct (predicate x).
Qed.

Section SortFilter.
Context {A : Type} (key : A -> Z) (reverse : bool).

Let R := fun x y => goes_before key reverse x y = true.

Lemma goes_before_trans : forall x y z, R x y -> R y z -> R x z.
Proof.
  unfold R, goes_before. intros x y z H1 H2.
  destruct reverse; apply Z.leb_le in H1, H2; apply Z.leb_le; lia.
Qed.

Lemma sorted_filter (p : A -> bool) l : Sorted R l -> Sorted R (List.filter p l).
Proof.
  intros Hs. apply StronglySorted_Sorted, filter_strongly_sorted.
  apply Sorted_StronglySorted; [intros ? ? ?; apply goes_before_trans|exact Hs].
Qed.

Lemma py_sort_sorted_id l : Sorted R l -> py_sort key reverse l = l.
Proof.
  induction l as [|x l IH]; intros Hs; simpl; [reflexivity|].
  apply Sorted_inv in Hs as [Hl Hhd]. rewrite IH by exact Hl.
  destruct l as [|y l]; simpl; [reflexivity|].
  inversion Hhd as [|? ? Hxy]; subst. unfold R in Hxy. now rewrite Hxy.
Qed.

Lemma sort_insert_all_after x L :
  Forall (R x) L -> sort_insert key reverse x L = x :: L.
Proof.
  destruct L as [|y L]; simpl; [reflexivity|].
  intros H. inversion H as [|? ? Hxy]; subst. unfold R in Hxy. now rewrite Hxy.
Qed.

Lemma filter_sort_insert (p : A -> bool) x L :
  StronglySorted R L ->
  List.filter p (sort_insert key reverse x L)
  = if p x then sort_insert key reverse x (List.filter p L) else List.filter p L.
Proof.
  induction L as [|y L IH]; intros Hs; [simpl; destruct (p x); reflexivity|].
  apply StronglySorted_inv in Hs as [HL Hall].
  cbn [sort_insert]. destruct (goes_before key reverse x y) eqn:Hxy.
  - assert (Hx : Forall (R x) (List.filter p (y :: L))).
    { apply Forall_forall. intros z Hz. apply filter_In in Hz as [Hz _].
      destruct Hz as [<-|Hz]; [exact Hxy|].
      apply (goes_before_trans x y z); [exact Hxy|].
      exact (proj1 (Forall_forall _ _) Hall z Hz). }
    change (List.filter p (x :: y :: L))
      with (if p x then x :: List.filter p (y :: L) else List.filter p (y :: L)).
    destruct (p x); [symmetry; apply sort_insert_all_after; exact Hx|reflexivity].
  - simpl. destruct (p y) eqn:Hpy; simpl; rewrite IH by exact HL.
    + destruct (p x); simpl; [rewrite Hxy|]; reflexivity.
    + reflexivity.
Qed.

(** The stable sort commutes with filtering. *)
Lemma filter_py_sort (p : A -> bool) l :
  List.filter p (py_sort key reverse l) = py_sort key reverse (List.filter p l).
Proof.
  induction l as [|x l IH]; simpl; [reflexivity|].
  rewrite filter_sort_insert.
  - rewrite IH. destruct (p x); reflexivity.
  - apply Sorted_StronglySorted; [intros ? ? ?; apply goes_before_trans|apply py_sort_sorted].
Qed.
End SortFilter.

Lemma filter_all {A} (p : A -> bool) l :
  (forall x, In x l -> p x = true) -> List.filter p l = l.
Proof.
  induction l as [|x l IH]; intros H; simpl; [reflexivity|].
  rewrite (H x (or_introl eq_refl)), IH; [reflexivity|].
  intros y Hy. apply H. right. exact Hy.
Qed.

Lemma filter_comm {A} (p q : A -> bool) l :
  List.filter p (List.filter q l) = List.filter q (List.filter p l).
Proof.
  induction l as [|x l IH]; simpl; [reflexivity|].
  destruct (p x) eqn:Hp, (q x) eqn:Hq; simpl; rewrite ?Hp, ?Hq, IH; reflexivity.
Qed.

(** A list that is already non-draft, own-first and newest-first within
    each group is left unchanged by the ordering step. *)
Lemma order_prs_fixed user l :
  (forall x, In x l -> is_draft x = false) ->
  l = List.filter (own user) l ++ List.filter (fun pr => negb (own user pr)) l ->
  Sorted (fun x y => goes_before created_at true x y = true) (List.filter (own user) l) ->
  Sorted (fun x y => goes_before created_at true x y = true)
         (List.filter (fun pr => negb (own user pr)) l) ->
  order_prs user l = l.
Proof.
  intros Hd Hsplit HsA HsB.
  rewrite order_prs_split. unfold recent_first, non_draft.
  rewrite (filter_all (fun pr => negb (is_draft pr)))
    by (intros x Hx; rewrite (Hd x Hx); reflexivity).
  rewrite !filter_py_sort, !py_sort_sorted_id by assumption.
  symmetry. exact Hsplit.
Qed.

Lemma order_prs_filter_fixed user prs (q : PullRequest -> bool) :
  let F := List.filter q (order_prs user prs) in
  order_prs user F = F.
Proof.
  intros F.
  set (T := recent_first prs).
  set (A := List.filter (own user) T).
  set (B := List.filter (fun pr => negb (own user pr)) T).
  assert (HT : Sorted (fun x y => goes_before created_at true x y = true) T)
    by (apply py_sort_sorted).
  assert (HownA : List.filter (own user) (List.filter q A) = List.filter q A).
  { apply filter_all. intros x Hx. apply filter_In in Hx as [Hx _].
    now apply filter_In in Hx as [_ Hx]. }
  assert (HownB : List.filter (own user) (List.filter q B) = []).
  { rewrite filter_comm. unfold B. rewrite (filter_none (own user)); [reflexivity|].
    intros x Hx. destruct (own user x); simpl in Hx; congruence. }
  assert (HnA : List.filter (fun pr => negb (own user pr)) (List.filter q A) = []).
  { rewrite filter_comm. unfold A. rewrite (filter_none (fun pr => negb (own user pr))); [reflexivity|].
    intros x Hx. now rewrite Hx. }
  assert (HnB : List.filter (fun pr => negb (own user pr)) (List.filter q B) = List.filter q B).
  { apply filter_all. intros x Hx. apply filter_In in Hx as [Hx _].
    now apply filter_In in Hx as [_ Hx]. }
  assert (HS : order_prs user prs = A ++ B) by apply order_prs_split.
  apply order_prs_fixed; unfold F; rewrite HS, ?filter_app, ?HownA, ?HownB, ?HnA, ?HnB, ?app_nil_r.
  - intros x Hx. rewrite <- filter_app, <- HS in Hx.
    apply filter_In in Hx as [Hx _].
    now apply in_order_prs in Hx as [_ Hx].
  - reflexivity.
  - apply sorted_filter, sorted_filter, HT.
  - apply sorted_filter, sorted_filter, HT.
Qed.

(** X6: running [__order_filter_prs] again on either of its outputs
    changes nothing: the open list comes back as the open list with no
    approved pull requests, and the approved list comes back whole as
    the approved list. *)
Theorem order_filter_prs_outputs_stable user prs :
  let '(open_prs, approved_prs) := order_filter_prs user prs in
  order_filter_prs user open_prs = (open_prs, []) /\
  order_filter_prs user approved_prs = ([], approved_prs).
Proof.
  unfold order_filter_prs at 1 2 3, in_place_filter at 1.
  set (q := fun pr => negb (pr_is_approved pr user)).
  split; unfold order_filter_prs, in_place_filter; fold q;
    rewrite order_prs_filter_fixed; f_equal.
  - apply filter_idem.
  - apply filter_none. intros x Hx. now rewrite Hx.
  - apply filter_none. intros x Hx. unfold q.
    destruct (pr_is_approved x user); simpl in *; congruence.
  - apply filter_all. intros x Hx. apply filter_In in Hx as [_ Hx]. unfold q.
    destruct (pr_is_approved x user); simpl in *; congruence.
Qed.

(** ** The list comprehension and [build_pr_items] *)

Lemma select_prs_ok (predicate : PullRequest -> result bool) l kept :
  select_prs predicate l = ROk kept ->
  kept = List.filter (fun pr => match predicate pr with ROk b => b | RErr _ => false end) l /\
  (forall pr, In pr l -> exists b, predicate pr = ROk b).
Proof.
  revert kept. induction l as [|pr l IH]; intros kept; simpl.
  - intros H. inversion H. split; [reflexivity | intros _ []].
  - destruct (predicate pr) as [b|e] eqn:Ep; [|discriminate].
    destruct (select_prs predicate l) as [k|e] eqn:Es; [|discriminate].
    intros H. inversion H; subst. destruct (IH k eq_refl) as [Hk Hall].
    split.
    + rewrite Hk. destruct b; reflexivity.
    + intros x [<-|Hx]; [exists b; exact Ep | exact (Hall x Hx)].
Qed.

Lemma select_prs_err (predicate : PullRequest -> result bool) l e :
  select_prs predicate l = RErr e -> exists pr, In pr l /\ predicate pr = RErr e.
Proof.
  induction l as [|pr l IH]; simpl; [discriminate|].
  destruct (predicate pr) as [b|e'] eqn:Ep.
  - destruct (select_prs predicate l) as [k|e'] eqn:Es; [discriminate|].
    intros H. inversion H; subst. destruct (IH eq_refl) as [x [Hx Hp]].
    exists x. split; [right; exact Hx | exact Hp].
  - intros H. inversion H; subst. exists pr. split; [left; reflexivity | exact Ep].
Qed.

Lemma build_pr_items_fetched net now td st ms pt pred inc open_prs approved_prs st' n :
  ctrl_get_prs net now td st = (ROk (open_prs, approved_prs), st', n) ->
  build_pr_items net now td st ms pt pred inc =
  (match select_prs (fun pr => match pred with None => ROk true | Some p => p pr end)
                    (match pt with APPROVED => approved_prs | OPEN => open_prs end) with
   | RErr e => RErr e
   | ROk kept =>
       ROk (map (pr_item (ctrl_user st) (fst (icons_of pt)) (snd (icons_of pt))) kept
            ++ button_part inc approved_prs)
   end, st', Some pt).
Proof.
  intros H. unfold build_pr_items. rewrite H.
  destruct pt; simpl; destruct (select_prs _ _); try reflexivity;
    unfold button_part; destruct (inc && _); rewrite ?app_nil_r; reflexivity.
Qed.

Lemma filter_true {A} (l : list A) : List.filter (fun _ => true) l = l.
Proof. induction l as [|x l IH]; simpl; [reflexivity|]. now rewrite IH. Qed.

Lemma ctrl_get_prs_user net now td st r st' n :
  ctrl_get_prs net now td st = (r, st', n) -> ctrl_user st' = ctrl_user st.
Proof.
  assert (Hf : forall r st' n, ctrl_fetch_prs net td st = (r, st', n) -> ctrl_user st' = ctrl_user st).
  { intros r0 st0 n0. unfold ctrl_fetch_prs.
    destruct (github_get_prs net (gh_repos st)) as [[prs|e] rp].
    all: intros H; inversion H; reflexivity. }
  unfold ctrl_get_prs. destruct (last_request st) as [[t0 s0]|]; [|apply Hf].
  destruct (now - t0 <? one_minute); [intros H; inversion H; reflexivity | apply Hf].
Qed.

(** X8: after a successful [__get_prs], [build_pr_items] stores [pr_type]
    in [multiselect_value] (also when the predicate raises), and either
    lists, in order, one item per pull request of the list chosen by
    [pr_type] that the predicate keeps, with the icons of that type
    (the user's variant for the user's own pull requests), followed by the
    approved button if any; or raises an exception that the predicate
    raised on one of the pull requests of that list. *)
Theorem build_pr_items_listing net now td st ms pt pred inc open_prs approved_prs st' n :
  ctrl_get_prs net now td st = (ROk (open_prs, approved_prs), st', n) ->
  let relevant := match pt with APPROVED => approved_prs | OPEN => open_prs end in
  let '(r, st'', ms') := build_pr_items net now td st ms pt pred inc in
  st'' = st' /\ ms' = Some pt /\
  match r with
  | ROk items =>
      items = map (pr_item (ctrl_user st) (fst (icons_of pt)) (snd (icons_of pt)))
                  (List.filter (kept_by pred) relevant)
              ++ button_part inc approved_prs
  | RErr e => exists p pr, pred = Some p /\ In pr relevant /\ p pr = RErr e
  end.
Proof.
  intros H relevant. rewrite (build_pr_items_fetched _ _ _ _ _ _ _ _ _ _ _ _ H).
  fold relevant.
  destruct (select_prs _ relevant) as [kept|e] eqn:Es;
    (split; [reflexivity | split; [reflexivity|]]).
  - apply select_prs_ok in Es as [Hk _]. subst kept.
    destruct pred; reflexivity.
  - apply select_prs_err in Es as [pr [Hin Hp]].
    destruct pred as [p|]; [|discriminate].
    exists p, pr. auto.
Qed.

Lemma build_pr_items_listing_witness :
  let st0 := mkController "alice" None None in
  let st1 := mkController "alice" (Some (5, ([pr_a], []))) (Some (Some [repo_a_url; repo_b_url])) in
  ctrl_get_prs net_b_down 0 5 st0 = (ROk ([pr_a], []), st1, 1%nat) /\
  let relevant := [pr_a] in
  let '(r, st'', ms') :=
    build_pr_items net_b_down 0 5 st0 None OPEN (Some (keyword_predicate "login")) true in
  st'' = st1 /\ ms' = Some OPEN /\
  match r with
  | ROk items =>
      items = map (pr_item (ctrl_user st0) (fst (icons_of OPEN)) (snd (icons_of OPEN)))
                  (List.filter (kept_by (Some (keyword_predicate "login"))) relevant)
              ++ button_part true []
  | RErr e => exists p pr, Some (keyword_predicate "login") = Some p /\ In pr relevant /\ p pr = RErr e
  end.
Proof.
  intros st0 st1.
  assert (H : ctrl_get_prs net_b_down 0 5 st0 = (ROk ([pr_a], []), st1, 1%nat))
    by (vm_compute; reflexivity).
  split; [exact H|].
  exact (build_pr_items_listing net_b_down 0 5 st0 None OPEN (Some (keyword_predicate "login"))
           true [pr_a] [] st1 1%nat H).
Defined.

(** X9: in a successful listing the only item whose action opens the
    approved list is the approved button: it is there exactly when the
    caller asked for it and there are approved pull requests, and then it
    is the last item. *)
Theorem approved_button_only_last net now td st ms pt pred inc open_prs approved_prs st' n items :
  ctrl_get_prs net now td st = (ROk (open_prs, approved_prs), st', n) ->
  fst (fst (build_pr_items net now td st ms pt pred inc)) = ROk items ->
  (forall it, In it items ->
     item_on_enter it = ExtensionCustomAction DataApprovedPrs true <->
     inc = true /\ approved_prs <> [] /\ it = approved_button approved_prs) /\
  (inc = true -> approved_prs <> [] -> exists pre, items = pre ++ [approved_button approved_prs]) /\
  (inc = false \/ approved_prs = [] ->
     forall it, In it items -> item_on_enter it <> ExtensionCustomAction DataApprovedPrs true).
Proof.
  intros H Hr. rewrite (build_pr_items_fetched _ _ _ _ _ _ _ _ _ _ _ _ H) in Hr. simpl in Hr.
  destruct (select_prs _ _) as [kept|e]; [|discriminate].
  injection Hr as Hitems.
  set (f := pr_item (ctrl_user st) (fst (icons_of pt)) (snd (icons_of pt))).
  assert (Hpr : forall it, In it (map f kept) -> exists pr, item_on_enter it = OpenUrlAction (url pr)).
  { intros it Hin. apply in_map_iff in Hin as [pr [<- _]]. exists pr. reflexivity. }
  assert (Hbp : button_part inc approved_prs
                = if andb inc (negb (Nat.eqb (List.length approved_prs) 0))
                  then [approved_button approved_prs] else []) by reflexivity.
  assert (Hne : negb (Nat.eqb (List.length approved_prs) 0) = true <-> approved_prs <> []).
  { destruct approved_prs; simpl; split; intros; congruence. }
  assert (Hiff : forall it, In it items ->
     item_on_enter it = ExtensionCustomAction DataApprovedPrs true <->
     inc = true /\ approved_prs <> [] /\ it = approved_button approved_prs).
  { intros it Hin. rewrite <- Hitems in Hin. apply in_app_or in Hin as [Hin|Hin].
    - destruct (Hpr it Hin) as [pr Hp]. rewrite Hp. split; [discriminate|].
      intros [Hi [Ha ->]]. discriminate Hp.
    - rewrite Hbp in Hin. destruct inc; [|destruct Hin].
      destruct (negb (Nat.eqb (List.length approved_prs) 0)) eqn:E; [|destruct Hin].
      destruct Hin as [<-|[]]. split; [|reflexivity]. intros _.
      split; [reflexivity|]. split; [apply Hne; reflexivity | reflexivity]. }
  split; [exact Hiff|]. split.
  - intros Hi Ha. exists (map f kept). rewrite <- Hitems, Hbp, Hi.
    apply Hne in Ha. rewrite Ha. reflexivity.
  - intros Hcase it Hin Hon. apply (Hiff it Hin) in Hon as [Hi [Ha _]].
    destruct Hcase; congruence.
Qed.

Lemma approved_button_only_last_witness :
  let pr_b := mkPR "a" "Fix login" "https://ghe.example/org/a/pull/1" false "bob" 1000 ["bob"; "bob"] in
  let st0 := mkController "bob" None None in
  let st1 := mkController "bob" (Some (5, ([], [pr_b]))) (Some (Some [repo_a_url])) in
  let items := [approved_button [pr_b]] in
  (ctrl_get_prs net_bob_twice 0 5 st0 = (ROk ([], [pr_b]), st1, 1%nat) /\
   fst (fst (build_pr_items net_bob_twice 0 5 st0 None OPEN None true)) = ROk items) /\
  (forall it, In it items ->
     item_on_enter it = ExtensionCustomAction DataApprovedPrs true <->
     true = true /\ [pr_b] <> [] /\ it = approved_button [pr_b]) /\
  (true = true -> [pr_b] <> [] -> exists pre, items = pre ++ [approved_button [pr_b]]) /\
  (true = false \/ [pr_b] = [] ->
     forall it, In it items -> item_on_enter it <> ExtensionCustomAction DataApprovedPrs true).
Proof.
  intros pr_b st0 st1 items.
  assert (H : ctrl_get_prs net_bob_twice 0 5 st0 = (ROk ([], [pr_b]), st1, 1%nat))
    by (vm_compute; reflexivity).
  assert (Hr : fst (fst (build_pr_items net_bob_twice 0 5 st0 None OPEN None true)) = ROk items)
    by (vm_compute; reflexivity).
  split; [split; [exact H | exact Hr]|].
  exact (approved_button_only_last net_bob_twice 0 5 st0 None OPEN None true [] [pr_b] st1 1%nat
           items H Hr).
Defined.

(** ** The event listeners *)

(** X10: after a successful [__get_prs], a keyword query empties the
    multiselect list, sets [multiselect_value] to [OPEN], and shows the
    open pull requests that the query keeps (those whose title or
    repository [re.search] matches, in order), as items with the open
    icons, followed by the approved button when there are approved pull
    requests; if the query raises ([re.error]), the listener raises the
    same exception. With no argument, the empty pattern is searched, and
    as [re] matches it everywhere, every open pull request is listed. *)
Theorem keyword_query_event_lists_query lib net now td ext arg open_prs approved_prs st' n :
  ctrl_get_prs net now td (github_controller ext) = (ROk (open_prs, approved_prs), st', n) ->
  let query := match arg with Some q => q | None => "" end in
  let items_of := fun kept =>
    map (pr_item (ctrl_user (github_controller ext)) GITHUB_LOGO GITHUB_USER_LOGO) kept
    ++ button_part true approved_prs in
  let '(resp, ext') := keyword_query_event lib net now td ext arg in
  ext' = mkExt st' [] (Some OPEN) /\
  resp = match lib_query_filter lib query open_prs with
         | ROk kept => Render (items_of kept)
         | RErr e => Raises (LExc e)
         end /\
  (arg = None ->
   (exists search_, lib "" IGNORECASE = inl search_ /\ forall s, search_ s = true) ->
   resp = Render (items_of open_prs)).
Proof.
  intros H query items_of. unfold keyword_query_event. fold query.
  rewrite (build_pr_items_fetched _ _ _ _ _ _ _ _ _ _ _ _ H).
  change (select_prs (fun pr => lib_keyword_predicate lib query pr) open_prs)
    with (lib_query_filter lib query open_prs).
  assert (Hempty : (exists search_, lib "" IGNORECASE = inl search_ /\ forall s, search_ s = true) ->
                   lib_query_filter lib "" open_prs = ROk open_prs).
  { intros [search_ [Hl Ht]]. unfold lib_query_filter.
    rewrite <- (filter_true open_prs) at 2. apply select_prs_total. intros pr.
    unfold lib_keyword_predicate, lib_re_search. rewrite Hl, Ht. reflexivity. }
  destruct (lib_query_filter lib query open_prs) as [kept|e] eqn:Eq.
  - split; [reflexivity|]. split; [reflexivity|].
    intros -> He. subst query. rewrite (Hempty He) in Eq.
    injection Eq as <-. reflexivity.
  - split; [reflexivity|]. split; [reflexivity|].
    intros -> He. subst query. rewrite (Hempty He) in Eq. discriminate.
Qed.

Lemma keyword_query_event_lists_query_witness :
  let lib : re_lib := fun p _ =>
    match re_compile p with
    | Compiled r => inl (fun s => search r (list_ascii_of_string s))
    | CompileError msg => inr msg
    | Unsupported => inr ""
    end in
  let ext := mkExt (mkController "alice" None None) ["u"] None in
  let st1 := mkController "alice" (Some (5, ([pr_a], []))) (Some (Some [repo_a_url; repo_b_url])) in
  ctrl_get_prs net_b_down 0 5 (github_controller ext) = (ROk ([pr_a], []), st1, 1%nat) /\
  let query := "LOGIN" in
  let items_of := fun kept =>
    map (pr_item (ctrl_user (github_controller ext)) GITHUB_LOGO GITHUB_USER_LOGO) kept
    ++ button_part true [] in
  let '(resp, ext') := keyword_query_event lib net_b_down 0 5 ext (Some "LOGIN") in
  ext' = mkExt st1 [] (Some OPEN) /\
  resp = match lib_query_filter lib query [pr_a] with
         | ROk kept => Render (items_of kept)
         | RErr e => Raises (LExc e)
         end /\
  (Some "LOGIN" = None ->
   (exists search_, lib "" IGNORECASE = inl search_ /\ forall s, search_ s = true) ->
   resp = Render (items_of [pr_a])).
Proof.
  intros lib ext st1.
  assert (H : ctrl_get_prs net_b_down 0 5 (github_controller ext) = (ROk ([pr_a], []), st1, 1%nat))
    by (vm_compute; reflexivity).
  split; [exact H|].
  exact (keyword_query_event_lists_query lib net_b_down 0 5 ext (Some "LOGIN") [pr_a] [] st1 1%nat H).
Defined.

(** X11: choosing a pull request for multiselect (alt-enter), once
    [multiselect_value] is set and [__get_prs] succeeds, appends its URL
    to the selection and shows first an item that opens every selected
    URL, in selection order, then the pull requests of the list named by
    [multiselect_value] whose URL is not selected; no listed pull request
    opens a selected URL, and every unselected one of that list is listed. *)
Theorem multiselect_event_opens_selection net now td ext u t open_prs approved_prs st' n :
  ms_value ext = Some t ->
  ctrl_get_prs net now td (github_controller ext) = (ROk (open_prs, approved_prs), st', n) ->
  let urls := multiselect_urls ext ++ [u] in
  let relevant := match t with APPROVED => approved_prs | OPEN => open_prs end in
  let item := pr_item (ctrl_user (github_controller ext)) (fst (icons_of t)) (snd (icons_of t)) in
  let rest := map item (List.filter (fun pr => negb (existsb (fun v => String.eqb (url pr) v) urls)) relevant) in
  multiselect_event net now td ext (DataMultiselect u)
  = (Render (open_selected_item urls :: rest), mkExt st' urls (Some t)) /\
  item_on_enter (open_selected_item urls) = ActionList (map OpenUrlAction urls) /\
  (forall it v, In it rest -> In v urls -> item_on_enter it <> OpenUrlAction v) /\
  (forall pr, In pr relevant -> ~ In (url pr) urls -> In (item pr) rest).
Proof.
  intros Hms H urls relevant item rest.
  split; [|split; [reflexivity|split]].
  - unfold multiselect_event. rewrite Hms. fold urls.
    rewrite (build_pr_items_fetched _ _ _ _ _ _ _ _ _ _ _ _ H).
    rewrite (select_prs_total (fun pr => negb (existsb (fun v => String.eqb (url pr) v) urls))) by reflexivity.
    unfold button_part. simpl. rewrite app_nil_r. destruct t; reflexivity.
  - intros it v Hin Hv Hon. apply in_map_iff in Hin as [pr [<- Hpr]].
    apply filter_In in Hpr as [_ Hsel]. injection Hon as Hu.
    apply negb_true_iff in Hsel. rewrite <- Hu in Hv.
    assert (existsb (fun w => String.eqb (url pr) w) urls = true).
    { apply existsb_exists. exists (url pr). split; [exact Hv | apply String.eqb_refl]. }
    congruence.
  - intros pr Hin Hn. apply in_map. apply filter_In. split; [exact Hin|].
    apply negb_true_iff. destruct (existsb _ urls) eqn:E; [|reflexivity].
    apply existsb_exists in E as [w [Hw Heq]]. apply String.eqb_eq in Heq. subst w.
    contradiction.
Qed.

Lemma multiselect_event_opens_selection_witness :
  let ext := mkExt (mkController "alice" None None) [] (Some OPEN) in
  let st1 := mkController "alice" (Some (5, ([pr_a], []))) (Some (Some [repo_a_url; repo_b_url])) in
  (ms_value ext = Some OPEN /\
   ctrl_get_prs net_b_down 0 5 (github_controller ext) = (ROk ([pr_a], []), st1, 1%nat)) /\
  let urls := multiselect_urls ext ++ ["https://ghe.example/org/b/pull/7"] in
  let relevant := [pr_a] in
  let item := pr_item (ctrl_user (github_controller ext)) (fst (icons_of OPEN)) (snd (icons_of OPEN)) in
  let rest := map item (List.filter (fun pr => negb (existsb (fun v => String.eqb (url pr) v) urls)) relevant) in
  multiselect_event net_b_down 0 5 ext (DataMultiselect "https://ghe.example/org/b/pull/7")
  = (Render (open_selected_item urls :: rest), mkExt st1 urls (Some OPEN)) /\
  item_on_enter (open_selected_item urls) = ActionList (map OpenUrlAction urls) /\
  (forall it v, In it rest -> In v urls -> item_on_enter it <> OpenUrlAction v) /\
  (forall pr, In pr relevant -> ~ In (url pr) urls -> In (item pr) rest).
Proof.
  intros ext st1.
  assert (H : ctrl_get_prs net_b_down 0 5 (github_controller ext) = (ROk ([pr_a], []), st1, 1%nat))
    by (vm_compute; reflexivity).
  split; [split; [reflexivity | exact H]|].
  exact (multiselect_event_opens_selection net_b_down 0 5 ext "https://ghe.example/org/b/pull/7"
           OPEN [pr_a] [] st1 1%nat eq_refl H).
Defined.

(** X14: listing the approved pull requests right after a fetch shows
    every approved pull request, in order, with the approved icons and no
    approved button; choosing one of them for multiselect within the
    minute lists the approved pull requests again (from the cached
    snapshot, whatever the network does then), minus the selected URLs,
    after the item that opens the selection. *)
Theorem approved_listing_then_select net net2 now td t2 td2 ext open_prs approved_prs st1 :
  ctrl_get_prs net now td (github_controller ext) = (ROk (open_prs, approved_prs), st1, 1%nat) ->
  now <= td -> t2 - now < one_minute ->
  let user := ctrl_user (github_controller ext) in
  let item := pr_item user GITHUB_APPROVED_LOGO GITHUB_USER_APPROVED_LOGO in
  let '(resp1, ext1) := approved_prs_event net now td ext DataApprovedPrs in
  resp1 = Render (map item approved_prs) /\
  forall pr, In pr approved_prs ->
    let urls := multiselect_urls ext ++ [url pr] in
    item_on_alt_enter (item pr) = Some (ExtensionCustomAction (DataMultiselect (url pr)) true) /\
    fst (multiselect_event net2 t2 td2 ext1 (DataMultiselect (url pr)))
    = Render (open_selected_item urls
              :: map item (List.filter (fun q => negb (existsb (fun v => String.eqb (url q) v) urls))
                                       approved_prs)).
Proof.
  intros H Hle Hlt user item.
  assert (Hu : ctrl_user st1 = user) by exact (ctrl_get_prs_user _ _ _ _ _ _ _ H).
  assert (Hlast : last_request st1 = Some (td, (open_prs, approved_prs)))
    by exact (ctrl_get_prs_fetched_stores _ _ _ _ _ _ H).
  assert (H2 : ctrl_get_prs net2 t2 td2 st1 = (ROk (open_prs, approved_prs), st1, 0%nat)).
  { unfold ctrl_get_prs. rewrite Hlast.
    replace (t2 - td <? one_minute) with true; [reflexivity|].
    symmetry. apply Z.ltb_lt. lia. }
  unfold approved_prs_event.
  rewrite (build_pr_items_fetched _ _ _ _ _ _ _ _ _ _ _ _ H).
  rewrite (select_prs_total (fun _ => true)) by reflexivity.
  rewrite filter_true. unfold button_part. simpl. rewrite app_nil_r.
  split; [reflexivity|].
  intros pr Hin. set (urls := multiselect_urls ext ++ [url pr]). split; [reflexivity|].
  unfold multiselect_event. simpl. fold urls.
  rewrite (build_pr_items_fetched _ _ _ _ _ _ _ _ _ _ _ _ H2).
  rewrite (select_prs_total (fun q => negb (existsb (fun v => String.eqb (url q) v) urls))) by reflexivity.
  unfold button_part. simpl. rewrite app_nil_r, Hu. reflexivity.
Qed.

Lemma approved_listing_then_select_witness :
  let pr_b := mkPR "a" "Fix login" "https://ghe.example/org/a/pull/1" false "bob" 1000 ["bob"; "bob"] in
  let ext := mkExt (mkController "bob" None None) [] None in
  let st1 := mkController "bob" (Some (5, ([], [pr_b]))) (Some (Some [repo_a_url])) in
  (ctrl_get_prs net_bob_twice 0 5 (github_controller ext) = (ROk ([], [pr_b]), st1, 1%nat) /\
   0 <= 5 /\ 30 - 0 < one_minute) /\
  let user := ctrl_user (github_controller ext) in
  let item := pr_item user GITHUB_APPROVED_LOGO GITHUB_USER_APPROVED_LOGO in
  let '(resp1, ext1) := approved_prs_event net_bob_twice 0 5 ext DataApprovedPrs in
  resp1 = Render (map item [pr_b]) /\
  forall pr, In pr [pr_b] ->
    let urls := multiselect_urls ext ++ [url pr] in
    item_on_alt_enter (item pr) = Some (ExtensionCustomAction (DataMultiselect (url pr)) true) /\
    fst (multiselect_event net_b_down 30 31 ext1 (DataMultiselect (url pr)))
    = Render (open_selected_item urls
              :: map item (List.filter (fun q => negb (existsb (fun v => String.eqb (url q) v) urls))
                                       [pr_b])).
Proof.
  intros pr_b ext st1.
  assert (H : ctrl_get_prs net_bob_twice 0 5 (github_controller ext) = (ROk ([], [pr_b]), st1, 1%nat))
    by (vm_compute; reflexivity).
  split; [split; [exact H | split; [discriminate | reflexivity]]|].
  exact (approved_listing_then_select net_bob_twice net_b_down 0 5 30 31 ext [] [pr_b] st1 H
           ltac:(discriminate) eq_refl).
Defined.
